(** * A shallow embedding of [client.py]: the Capital.com REST client

    The client object [CapitalAPI] holds a configuration, a base URL and the
    two session tokens.  Every method sends at most one HTTP request through
    [requests.Session]; the remote server is the environment.  Methods are
    embedded in a small monad that threads the client object (Python mutates
    [self], and a mutation survives a later [raise]), records the requests
    handed to the session, and propagates exceptions. *)

From Stdlib Require Import ZArith List String Ascii Bool Lia SpecFloat.
Import ListNotations.

Local Open Scope string_scope.
Local Open Scope Z_scope.
#[local] Set Warnings "-register-all".

(* ================================================================= *)
(** ** Python values *)

Module Py.

(** Python numbers: [int] is unbounded, [float] is IEEE-754 binary64. *)
Inductive number : Type :=
| NInt (z : Z)
| NFloat (f : spec_float).

(** The values a decoded JSON document (and a request payload) is made of.
    A [dict] keeps insertion order, so it is an association list. *)
Inductive value : Type :=
| VNone
| VBool (b : bool)
| VNum (n : number)
| VStr (s : string)
| VList (l : list value)
| VDict (d : list (string * value)).

Definition dict (V : Type) : Type := list (string * V).

(** [d.get(k)] *)
Fixpoint dict_get {V : Type} (d : dict V) (k : string) : option V :=
  match d with
  | [] => None
  | (k', v) :: d' => if String.eqb k' k then Some v else dict_get d' k
  end.

(** [d[k] = v]: overwrite in place when the key exists, append otherwise. *)
Fixpoint dict_set {V : Type} (d : dict V) (k : string) (v : V) : dict V :=
  match d with
  | [] => [(k, v)]
  | (k', v') :: d' =>
      if String.eqb k' k then (k', v) :: d' else (k', v') :: dict_set d' k v
  end.

(** [d.update(other)] *)
Definition dict_update {V : Type} (d other : dict V) : dict V :=
  fold_left (fun acc kv => dict_set acc (fst kv) (snd kv)) other d.

Definition dict_keys {V : Type} (d : dict V) : list string := map fst d.

(** Truth value testing, as [if x], [not x] and [x or y] use it. *)
Definition truthy_str (s : string) : bool :=
  match s with EmptyString => false | String _ _ => true end.

Definition truthy_num (n : number) : bool :=
  match n with
  | NInt z => negb (z =? 0)
  | NFloat (S754_zero _) => false
  | NFloat _ => true
  end.

Definition truthy (v : value) : bool :=
  match v with
  | VNone => false
  | VBool b => b
  | VNum n => truthy_num n
  | VStr s => truthy_str s
  | VList l => match l with [] => false | _ :: _ => true end
  | VDict d => match d with [] => false | _ :: _ => true end
  end.

(** Truth value of an attribute that is [None] or a [str]. *)
Definition truthy_opt (o : option string) : bool :=
  match o with None => false | Some s => truthy_str s end.

(** One part of an f-string: literal text, or a formatted value.  The
    rendering of a value by [str()] is not modelled; the parts are kept. *)
Inductive piece : Type :=
| Lit (s : string)
| Fmt (v : value).

Definition fstring : Type := list piece.

End Py.
Import Py.

(* ================================================================= *)
(** ** The [requests] library, as far as the client uses it *)

Module Requests.

Inductive method : Type := GET | POST | DELETE.

(** What [session.get/post/delete] is called with. *)
Record Request : Type := mkRequest {
  req_method  : method;
  req_url     : string;
  req_headers : dict string;
  req_params  : option (dict string);
  req_json    : option (dict value);
  req_timeout : Z
}.

(** A received response.  [resp_json] is what [resp.json()] decodes, [None]
    when the body is not decodable (the call then raises). *)
Record Response : Type := mkResponse {
  status_code  : Z;
  resp_headers : list (string * string);
  text         : string;
  resp_json    : option value
}.

(** [session.*] either returns a response or raises (timeout, connection
    failure, ...) without one. *)
Inductive transport_error : Type :=
| Timeout
| ConnectionError
| OtherRequestException (name : string).

Inductive reply : Type :=
| Responded (r : Response)
| Failed (e : transport_error).

(** [Response.headers] is case-insensitive in the header name. *)
Definition lower_ascii (c : ascii) : ascii :=
  let n := N_of_ascii c in
  if ((65 <=? n) && (n <=? 90))%N then ascii_of_N (n + 32) else c.

Fixpoint lower (s : string) : string :=
  match s with
  | EmptyString => EmptyString
  | String c s' => String (lower_ascii c) (lower s')
  end.

(** [r.headers.get(name)] *)
Fixpoint headers_get (h : list (string * string)) (name : string)
  : option string :=
  match h with
  | [] => None
  | (k, v) :: h' =>
      if String.eqb (lower k) (lower name) then Some v else headers_get h' name
  end.

End Requests.
Import Requests.

(* ================================================================= *)
(** ** Exceptions and the method monad *)

Inductive exn : Type :=
| OverflowError                          (* float(int) out of range *)
| AttributeError (attr : string)         (* attribute lookup on a wrong type *)
| JSONDecodeError                        (* resp.json() on a bad body *)
| RequestException (e : transport_error) (* raised by the session call *)
| HTTPError (r : Response)               (* raise_for_status() *)
| RuntimeError (msg : fstring).

Inductive result (A : Type) : Type :=
| Return (a : A)
| Raise (e : exn).
Arguments Return {A} a.
Arguments Raise {A} e.

(** [float(x)] for a number: identity on a float, round-to-nearest-even on an
    int, [OverflowError] when the int is beyond the binary64 range. *)
Definition float (n : number) : result spec_float :=
  match n with
  | NFloat f => Return f
  | NInt z =>
      match binary_normalize 53 1024 z 0 false with
      | S754_infinity _ => Raise OverflowError
      | f => Return f
      end
  end.

(** [data.get(key)]: only a dict has the method. *)
Definition py_get (data : value) (key : string) : result value :=
  match data with
  | VDict d => match dict_get d key with
               | Some v => Return v
               | None => Return VNone
               end
  | _ => Raise (AttributeError "get")
  end.

(** [resp.json()] *)
Definition json (r : Response) : result value :=
  match resp_json r with
  | Some v => Return v
  | None => Raise JSONDecodeError
  end.

(** [@dataclass CapitalConfig] *)
Record CapitalConfig : Type := mkConfig {
  identifier   : string;
  api_key      : string;
  api_password : string;
  use_demo     : bool
}.

(** The attributes of a [CapitalAPI] object.  The [session] attribute is the
    channel to the server; it is the environment of the monad below. *)
Record CapitalAPI : Type := mkAPI {
  config         : CapitalConfig;
  base_url       : string;
  cst            : option string;
  security_token : option string
}.

Definition exchange : Type := Request * reply.

(** A method body: given the server's answer to a request and the object,
    it yields the object as mutated, the exchanges made, and the outcome. *)
Definition M (A : Type) : Type :=
  (Request -> reply) -> CapitalAPI -> CapitalAPI * list exchange * result A.

Definition ret {A : Type} (a : A) : M A :=
  fun _ self => (self, [], Return a).

Definition raise {A : Type} (e : exn) : M A :=
  fun _ self => (self, [], Raise e).

Definition bind {A B : Type} (m : M A) (k : A -> M B) : M B :=
  fun net self =>
    match m net self with
    | (self1, t1, Return a) =>
        match k a net self1 with
        | (self2, t2, out) => (self2, (t1 ++ t2)%list, out)
        end
    | (self1, t1, Raise e) => (self1, t1, Raise e)
    end.

Definition lift {A : Type} (r : result A) : M A :=
  fun _ self => (self, [], r).

Definition get_self : M CapitalAPI :=
  fun _ self => (self, [], Return self).

Definition set_cst (v : option string) : M unit :=
  fun _ self =>
    (mkAPI (config self) (base_url self) v (security_token self), [],
     Return tt).

Definition set_security_token (v : option string) : M unit :=
  fun _ self =>
    (mkAPI (config self) (base_url self) (cst self) v, [], Return tt).

(** The one place where the server is consulted. *)
Definition session_request (req : Request) : M Response :=
  fun net self =>
    match net req with
    | Responded r => (self, [(req, Responded r)], Return r)
    | Failed e => (self, [(req, Failed e)], Raise (RequestException e))
    end.

Declare Scope py_scope.
Delimit Scope py_scope with py.
Notation "x <- m ;; k" := (bind m (fun x => k))
  (at level 61, m at next level, right associativity) : py_scope.
Notation "m ;; k" := (bind m (fun _ => k))
  (at level 61, right associativity) : py_scope.
Local Open Scope py_scope.

Definition session_get (url : string) (headers : dict string)
  (params : option (dict string)) (timeout : Z) : M Response :=
  session_request (mkRequest GET url headers params None timeout).

Definition session_post (url : string) (headers : dict string)
  (payload : dict value) (timeout : Z) : M Response :=
  session_request (mkRequest POST url headers None (Some payload) timeout).

Definition session_delete (url : string) (headers : dict string)
  (timeout : Z) : M Response :=
  session_request (mkRequest DELETE url headers None None timeout).

(** [r.raise_for_status()]: 4xx and 5xx raise, everything else passes. *)
Definition status_raises (r : Response) : bool :=
  (400 <=? status_code r) && (status_code r <? 600).

Definition raise_for_status (r : Response) : M unit :=
  if status_raises r then raise (HTTPError r) else ret tt.

(* ================================================================= *)
(** ** [class CapitalAPI] *)

Definition demo_url : string := "https://demo-api-capital.backend-capital.com".
Definition live_url : string := "https://api-capital.backend-capital.com".

(** [__init__] *)
Definition init (cfg : CapitalConfig) : CapitalAPI :=
  {| config := cfg;
     base_url := if use_demo cfg then demo_url else live_url;
     cst := None;
     security_token := None |}.

(** [_headers] *)
Definition _headers (self : CapitalAPI) : dict string :=
  let h := [("X-CAP-API-KEY", api_key (config self))] in
  match cst self, security_token self with
  | Some c, Some t =>
      if truthy_str c && truthy_str t
      then dict_update h [("CST", c); ("X-SECURITY-TOKEN", t)]
      else h
  | _, _ => h
  end.

(** [_json]: [resp.json()], and on any exception [{"text": resp.text}] *)
Definition _json (resp : Response) : value :=
  match json resp with
  | Return v => v
  | Raise _ => VDict [("text", VStr (text resp))]
  end.

Definition json_content_type (h : dict string) : dict string :=
  dict_set h "Content-Type" "application/json".

Definition login_no_tokens : fstring :=
  [Lit "Login OK, aber keine Tokens (CST/X-SECURITY-TOKEN) erhalten"].

Definition login : M unit :=
  self <- get_self ;;
  let url := base_url self ++ "/session" in
  let body := [("identifier", VStr (identifier (config self)));
               ("password", VStr (api_password (config self)));
               ("encryptedPassword", VBool false)] in
  r <- session_post url (json_content_type (_headers self)) body 15 ;;
  raise_for_status r ;;
  set_cst (headers_get (resp_headers r) "CST") ;;
  set_security_token (headers_get (resp_headers r) "X-SECURITY-TOKEN") ;;
  self <- get_self ;;
  if negb (truthy_opt (cst self) && truthy_opt (security_token self))
  then raise (RuntimeError login_no_tokens)
  else ret tt.

Definition search_markets (search_term : string) : M value :=
  self <- get_self ;;
  let url := base_url self ++ "/markets" in
  r <- session_get url (_headers self)
         (Some [("searchTerm", search_term)]) 15 ;;
  raise_for_status r ;;
  let data := _json r in
  markets <- lift (py_get data "markets") ;;
  if truthy markets then ret markets else
  content <- lift (py_get data "content") ;;
  if truthy content then ret content else
  ret (VList []).

(** [if x is not None: payload[key] = float(x)] *)
Definition set_float (payload : dict value) (key : string) (x : option number)
  : M (dict value) :=
  match x with
  | Some n =>
      f <- lift (float n) ;; ret (dict_set payload key (VNum (NFloat f)))
  | None => ret payload
  end.

(** [if flag: payload[key] = True] *)
Definition set_flag (payload : dict value) (key : string) (flag : bool)
  : dict value :=
  if flag then dict_set payload key (VBool true) else payload.

Definition status_value (r : Response) : value := VNum (NInt (status_code r)).

(** The tail shared, line for line, by the two order-creating methods. *)
Definition read_deal_reference (failed : string) (r : Response) : M value :=
  let data := _json r in
  if status_code r >=? 300
  then raise (RuntimeError
                [Lit failed; Fmt (status_value r); Lit ": "; Fmt data])
  else
    deal_ref <- lift (py_get data "dealReference") ;;
    if negb (truthy deal_ref)
    then raise (RuntimeError [Lit "No dealReference in response: "; Fmt data])
    else ret deal_ref.

Definition create_position (epic direction : string) (size : number)
  (stop_level profit_level : option number)
  (guaranteed_stop trailing_stop : bool) : M value :=
  self <- get_self ;;
  let url := base_url self ++ "/api/v1/positions" in
  let payload := [("epic", VStr epic); ("direction", VStr direction);
                  ("size", VNum size)] in
  payload <- set_float payload "stopLevel" stop_level ;;
  payload <- set_float payload "profitLevel" profit_level ;;
  let payload := set_flag payload "guaranteedStop" guaranteed_stop in
  let payload := set_flag payload "trailingStop" trailing_stop in
  r <- session_post url (json_content_type (_headers self)) payload 15 ;;
  read_deal_reference "Create position failed " r.

Definition confirm (deal_reference : string) : M value :=
  self <- get_self ;;
  let url := base_url self ++ "/api/v1/confirms/" ++ deal_reference in
  r <- session_get url (_headers self) None 15 ;;
  raise_for_status r ;;
  ret (_json r).

Definition list_positions : M value :=
  self <- get_self ;;
  let url := base_url self ++ "/api/v1/positions" in
  r <- session_get url (_headers self) None 15 ;;
  raise_for_status r ;;
  ret (_json r).

Definition close_position (deal_id : string) : M value :=
  self <- get_self ;;
  let url := base_url self ++ "/api/v1/positions/otc" in
  let url := base_url self ++ "/api/v1/positions/" ++ deal_id in
  r <- session_delete url (_headers self) 15 ;;
  raise_for_status r ;;
  ret (_json r).

Definition create_working_order (epic direction order_type : string)
  (size level : number) (time_in_force : string)
  (stop_level profit_level : option number) : M value :=
  self <- get_self ;;
  let url := base_url self ++ "/api/v1/workingorders" in
  level <- lift (float level) ;;
  let payload := [("epic", VStr epic);
                  ("direction", VStr direction);
                  ("orderType", VStr order_type);
                  ("size", VNum size);
                  ("level", VNum (NFloat level));
                  ("timeInForce", VStr time_in_force)] in
  payload <- set_float payload "stopLevel" stop_level ;;
  payload <- set_float payload "profitLevel" profit_level ;;
  r <- session_post url (json_content_type (_headers self)) payload 15 ;;
  read_deal_reference "Create working order failed " r.

Definition delete_working_order (deal_id : string) : M value :=
  self <- get_self ;;
  let url := base_url self ++ "/api/v1/workingorders/" ++ deal_id in
  r <- session_delete url (_headers self) 15 ;;
  raise_for_status r ;;
  ret (_json r).

(* ================================================================= *)
(** ** Calls and sessions *)

Definition state_of {A : Type} (x : CapitalAPI * list exchange * result A)
  : CapitalAPI := fst (fst x).
Definition trace_of {A : Type} (x : CapitalAPI * list exchange * result A)
  : list exchange := snd (fst x).
Definition outcome_of {A : Type} (x : CapitalAPI * list exchange * result A)
  : result A := snd x.

(** A method call with its arguments. *)
Inductive Op : Type :=
| Login
| SearchMarkets (search_term : string)
| CreatePosition (epic direction : string) (size : number)
    (stop_level profit_level : option number)
    (guaranteed_stop trailing_stop : bool)
| Confirm (deal_reference : string)
| ListPositions
| ClosePosition (deal_id : string)
| CreateWorkingOrder (epic direction order_type : string)
    (size level : number) (time_in_force : string)
    (stop_level profit_level : option number)
| DeleteWorkingOrder (deal_id : string).

Definition call (op : Op) : M value :=
  match op with
  | Login => login ;; ret VNone
  | SearchMarkets s => search_markets s
  | CreatePosition e d s sl pl g t => create_position e d s sl pl g t
  | Confirm ref => confirm ref
  | ListPositions => list_positions
  | ClosePosition id => close_position id
  | CreateWorkingOrder e d o s l tif sl pl =>
      create_working_order e d o s l tif sl pl
  | DeleteWorkingOrder id => delete_working_order id
  end.

Definition is_login (op : Op) : bool :=
  match op with Login => true | _ => false end.

(** The server may answer according to everything exchanged so far. *)
Definition server : Type := list exchange -> Request -> reply.

Definition step : Type := Op * list exchange * result value.

(** A caller running the calls one after the other on one object, going on
    after a call that raised. *)
Fixpoint run (srv : server) (ops : list Op) (self : CapitalAPI)
  (hist : list exchange) : CapitalAPI * list exchange * list step :=
  match ops with
  | [] => (self, hist, [])
  | op :: ops' =>
      match call op (srv hist) self with
      | (self1, t, out) =>
          match run srv ops' self1 (hist ++ t)%list with
          | (self2, hist2, steps) => (self2, hist2, (op, t, out) :: steps)
          end
      end
  end.

Definition login_succeeded (s : step) : bool :=
  match s with
  | (Login, _, Return _) => true
  | _ => false
  end.

(** Both tokens are held: what [_headers] tests. *)
Definition has_tokens (self : CapitalAPI) : bool :=
  truthy_opt (cst self) && truthy_opt (security_token self).

(** The three ways an order-creating call can end. *)
Definition status_failure (failed : string) (r : Response) : exn :=
  RuntimeError [Lit failed; Fmt (status_value r); Lit ": "; Fmt (_json r)].

Definition no_deal_reference (r : Response) : exn :=
  RuntimeError [Lit "No dealReference in response: "; Fmt (_json r)].

(** An error message mentions a value when one of its parts formats it. *)
Definition carries (e : exn) (v : value) : Prop :=
  match e with
  | RuntimeError msg => In (Fmt v) msg
  | _ => False
  end.

(** Sample data for the examples. *)
Definition cfg0 : CapitalConfig :=
  mkConfig "user@example.com" "KEY" "secret" true.

Definition always (r : Response) : Request -> reply := fun _ => Responded r.

Definition ok_json (v : value) : Response :=
  mkResponse 200 [] EmptyString (Some v).

Definition login_ok : Response :=
  mkResponse 200 [("CST", "c-token"); ("X-SECURITY-TOKEN", "s-token")]
    EmptyString None.

Definition login_empty_cst : Response :=
  mkResponse 200 [("CST", EmptyString); ("X-SECURITY-TOKEN", "s-token")]
    EmptyString None.

Definition market_a : value := VDict [("epic", VStr "A")].

Definition both_keys : Response :=
  ok_json (VDict [("markets", VList []); ("content", VList [market_a])]).

Definition empty_reference : Response :=
  ok_json (VDict [("dealReference", VStr EmptyString)]).


Definition not_json : Response := mkResponse 200 [] "<html>" None.

(** The two order-creating calls, with the text their status failure
    starts with. *)
Definition create_label (op : Op) : option string :=
  match op with
  | CreatePosition _ _ _ _ _ _ _ => Some "Create position failed "
  | CreateWorkingOrder _ _ _ _ _ _ _ _ => Some "Create working order failed "
  | _ => None
  end.

(** The calls that hand the parsed body back as it is. *)
Definition returns_body (op : Op) : bool :=
  match op with
  | Confirm _ | ListPositions | ClosePosition _ | DeleteWorkingOrder _ => true
  | _ => false
  end.

(** The object after [login] has read the two headers of [r]. *)
Definition with_tokens (self : CapitalAPI) (r : Response) : CapitalAPI :=
  mkAPI (config self) (base_url self)
        (headers_get (resp_headers r) "CST")
        (headers_get (resp_headers r) "X-SECURITY-TOKEN").

(** What [payload[key] = float(x)] leaves under [key] for an optional
    argument [x]: nothing when [x] is [None]. *)
Definition sent_float (x : option number) : option value :=
  match x with
  | Some n => match float n with
              | Return f => Some (VNum (NFloat f))
              | Raise _ => None
              end
  | None => None
  end.

(** What [if flag: payload[key] = True] leaves under [key]. *)
Definition sent_flag (flag : bool) : option value :=
  if flag then Some (VBool true) else None.

(* ================================================================= *)
(** * Properties *)

(** ** Symbolic execution of a call *)

Ltac unfold_head :=
  cbv beta iota zeta delta
    [call login search_markets create_position confirm list_positions
     close_position create_working_order delete_working_order
     set_float
     bind ret raise lift get_self set_cst set_security_token
     session_get session_post session_delete session_request raise_for_status
     state_of trace_of outcome_of fst snd app].

Ltac unfold_call :=
  unfold_head; cbv beta iota zeta delta [read_deal_reference];
  unfold_head.

Ltac case_step :=
  match goal with
  | |- context [match ?net ?req with Responded _ => _ | Failed _ => _ end] =>
      destruct (net req) eqn:?
  | |- context [match float ?n with Return _ => _ | Raise _ => _ end] =>
      destruct (float n) eqn:?
  | |- context [match py_get ?d ?k with Return _ => _ | Raise _ => _ end] =>
      destruct (py_get d k) eqn:?
  | |- context [match ?o with Some _ => _ | None => _ end] =>
      is_var o; destruct o
  | |- context [if ?b then _ else _] => destruct b eqn:?
  end.

Ltac run_call := unfold_call; repeat (case_step; unfold_call).

(** ** Sanity checks on sample data *)

Example login_ok_example :
  state_of (login (always login_ok) (init cfg0))
    = mkAPI cfg0 demo_url (Some "c-token") (Some "s-token")
  /\ outcome_of (login (always login_ok) (init cfg0)) = Return tt.
Proof. split; reflexivity. Qed.

Example create_position_example :
  outcome_of (create_position "EPIC" "BUY" (NInt 1) None None false false
                (always (ok_json (VDict [("dealReference", VStr "X")])))
                (init cfg0)) = Return (VStr "X").
Proof. reflexivity. Qed.

Example float_of_three :
  float (NInt 3) = Return (S754_finite false 6755399441055744 (-51)).
Proof. reflexivity. Qed.

Example float_overflow : float (NInt (2 ^ 1024)) = Raise OverflowError.
Proof. vm_compute. reflexivity. Qed.

Example headers_get_ignores_case :
  headers_get [("cst", "a")] "CST" = Some "a".
Proof. reflexivity. Qed.

(** A second login answered without the security token drops the tokens
    of the first. *)
Example relogin_example :
  let srv : server := fun hist _ =>
    match hist with
    | [] => Responded login_ok
    | _ => Responded (mkResponse 200 [("CST", "new")] EmptyString None)
    end in
  let '(self, _, steps) := run srv [Login; Login] (init cfg0) [] in
  map login_succeeded steps = [true; false] /\
  cst self = Some "new" /\ security_token self = None.
Proof. cbn. repeat split; reflexivity. Qed.

(** ** Headers *)

Lemma headers_api_key self :
  dict_get (_headers self) "X-CAP-API-KEY" = Some (api_key (config self)).
Proof.
  unfold _headers. destruct (cst self), (security_token self); try reflexivity.
  destruct (truthy_str s && truthy_str s0); reflexivity.
Qed.

Lemma headers_tokens self :
  if has_tokens self
  then dict_get (_headers self) "CST" = cst self /\
       dict_get (_headers self) "X-SECURITY-TOKEN" = security_token self
  else dict_get (_headers self) "CST" = None /\
       dict_get (_headers self) "X-SECURITY-TOKEN" = None.
Proof.
  unfold has_tokens, _headers, truthy_opt.
  destruct (cst self) as [c|], (security_token self) as [t|]; cbn;
    try (destruct (truthy_str c)); try (destruct (truthy_str t));
    cbn; split; reflexivity.
Qed.

Lemma content_type_other (h : dict string) (k : string) :
  String.eqb k "Content-Type" = false ->
  dict_get (json_content_type h) k = dict_get h k.
Proof.
  unfold json_content_type. intros Hk.
  induction h as [|[k' v'] h IH]; cbn [dict_get dict_set].
  - rewrite String.eqb_sym, Hk. reflexivity.
  - destruct (String.eqb k' "Content-Type") eqn:E; cbn [dict_get dict_set].
    + destruct (String.eqb k' k) eqn:E'; [|reflexivity].
      apply String.eqb_eq in E, E'. subst. discriminate.
    + rewrite IH. reflexivity.
Qed.

(** ** What a call exchanges and what it leaves of the object *)

(** A call sends at most one request, built from [_headers]. *)
Lemma call_trace op net self req rep :
  In (req, rep) (trace_of (call op net self)) ->
  trace_of (call op net self) = [(req, net req)] /\ rep = net req /\
  (req_headers req = _headers self \/
   req_headers req = json_content_type (_headers self)).
Proof.
  destruct op; run_call; cbn [In]; intros H; try contradiction;
    destruct H as [H|[]]; inversion H; subst;
    repeat split;
    first [ left; reflexivity | right; reflexivity
          | match goal with
            | E : net _ = _ |- _ => rewrite <- E; reflexivity
            end ].
Qed.

Lemma call_frame op net self :
  is_login op = false -> state_of (call op net self) = self.
Proof.
  destruct op; cbn [is_login]; intros H; try discriminate;
    run_call; reflexivity.
Qed.

Lemma call_config op net self :
  config (state_of (call op net self)) = config self /\
  base_url (state_of (call op net self)) = base_url self.
Proof.
  destruct op; run_call; split; reflexivity.
Qed.

(** [login], once the server has answered. *)
Lemma login_responded net self req r :
  trace_of (login net self) = [(req, Responded r)] ->
  login net self =
    if status_raises r
    then (self, [(req, Responded r)], Raise (HTTPError r))
    else (with_tokens self r, [(req, Responded r)],
          if has_tokens (with_tokens self r)
          then Return tt else Raise (RuntimeError login_no_tokens)).
Proof.
  unfold has_tokens, with_tokens.
  run_call; cbn [cst security_token] in *; intros H; inversion H; subst;
    repeat match goal with
           | E : _ = true |- _ => rewrite E in *
           | E : _ = false |- _ => rewrite E in *
           end; cbn in *; try discriminate; reflexivity.
Qed.

(** The shared tail neither touches the object nor talks to the server. *)
Lemma read_pure failed r net self :
  read_deal_reference failed r net self
    = (self, [], outcome_of (read_deal_reference failed r net self)).
Proof. run_call; reflexivity. Qed.

(** An order-creating call, once the server has answered, ends as the
    shared tail [read_deal_reference] does on the response. *)
Lemma create_responded op failed net self req r :
  create_label op = Some failed ->
  trace_of (call op net self) = [(req, Responded r)] ->
  outcome_of (call op net self)
    = outcome_of (read_deal_reference failed r net self).
Proof.
  destruct op; cbn [create_label]; intros L; inversion L; subst; clear L;
    unfold_head; repeat (case_step; unfold_head);
    try (intros H; discriminate H);
    rewrite read_pure; unfold_head; intros H; inversion H; subst; reflexivity.
Qed.

Lemma read_status_failure failed r net self :
  300 <= status_code r ->
  outcome_of (read_deal_reference failed r net self)
    = Raise (status_failure failed r).
Proof.
  intros Hs. unfold read_deal_reference, status_failure.
  destruct (status_code r >=? 300) eqn:E; [reflexivity | lia].
Qed.

Lemma read_below_300 failed r net self d :
  status_code r < 300 ->
  _json r = VDict d ->
  outcome_of (read_deal_reference failed r net self)
    = match dict_get d "dealReference" with
      | Some v => if truthy v then Return v else Raise (no_deal_reference r)
      | None => Raise (no_deal_reference r)
      end.
Proof.
  intros Hs Hd. unfold read_deal_reference, no_deal_reference.
  destruct (status_code r >=? 300) eqn:E; [lia|].
  rewrite Hd. unfold_call. cbn [py_get].
  destruct (dict_get d "dealReference") as [v|]; [|reflexivity].
  destruct (truthy v); reflexivity.
Qed.


(** The four pass-through calls, once the server has answered. *)
Lemma plain_responded op net self req r :
  returns_body op = true ->
  trace_of (call op net self) = [(req, Responded r)] ->
  outcome_of (call op net self)
    = if status_raises r then Raise (HTTPError r) else Return (_json r).
Proof.
  destruct op; cbn [returns_body]; intros L; try discriminate;
    run_call; intros H; inversion H; subst;
    unfold status_raises in *; congruence.
Qed.

(** [search_markets], once the server has answered: the [or] chain. *)
Lemma search_responded term net self req r :
  trace_of (search_markets term net self) = [(req, Responded r)] ->
  outcome_of (search_markets term net self)
    = if status_raises r then Raise (HTTPError r) else
      match py_get (_json r) "markets" with
      | Raise e => Raise e
      | Return markets =>
          if truthy markets then Return markets else
          match py_get (_json r) "content" with
          | Raise e => Raise e
          | Return content =>
              if truthy content then Return content else Return (VList [])
          end
      end.
Proof.
  run_call; intros H; inversion H; subst;
    unfold status_raises in *; congruence.
Qed.

(** ** Sessions *)



Lemma run_config srv ops : forall self hist self' hist' steps,
  run srv ops self hist = (self', hist', steps) ->
  config self' = config self /\ base_url self' = base_url self.
Proof.
  induction ops as [|op ops IH]; intros self hist self' hist' steps; cbn [run].
  - intros H; inversion H; subst. split; reflexivity.
  - destruct (call op (srv hist) self) as [[self1 t] out] eqn:E.
    destruct (run srv ops self1 (hist ++ t)%list)
      as [[self2 hist2] steps2] eqn:R.
    intros H; inversion H; subst.
    destruct (IH _ _ _ _ _ R) as [Hc Hb].
    destruct (call_config op (srv hist) self) as [Hc1 Hb1].
    rewrite E in Hc1, Hb1. cbn in Hc1, Hb1. split; congruence.
Qed.


(* ================================================================= *)
(** * The claims *)

(** ** Login *)

(** C1, as amended.  When the answer to [login] has status 200: if it
    carries both the CST and the X-SECURITY-TOKEN header, each with a
    non-empty value, login stores the two values and returns normally; if
    either header is missing or empty, login raises its
    "keine Tokens" error. *)
Theorem login_contract net self req r :
  trace_of (login net self) = [(req, Responded r)] ->
  status_code r = 200 ->
  (forall c t,
      headers_get (resp_headers r) "CST" = Some c ->
      headers_get (resp_headers r) "X-SECURITY-TOKEN" = Some t ->
      truthy_str c = true -> truthy_str t = true ->
      outcome_of (login net self) = Return tt /\
      cst (state_of (login net self)) = Some c /\
      security_token (state_of (login net self)) = Some t) /\
  (headers_get (resp_headers r) "CST" = None \/
   headers_get (resp_headers r) "CST" = Some EmptyString \/
   headers_get (resp_headers r) "X-SECURITY-TOKEN" = None \/
   headers_get (resp_headers r) "X-SECURITY-TOKEN" = Some EmptyString ->
   outcome_of (login net self) = Raise (RuntimeError login_no_tokens)).
Proof.
  intros Ht Hs. rewrite (login_responded net self req r Ht).
  assert (status_raises r = false) as ->
      by (unfold status_raises; rewrite Hs; reflexivity).
  unfold has_tokens, with_tokens, state_of, outcome_of; cbn.
  split.
  - intros c t Hc Hx Tc Tt. rewrite Hc, Hx. cbn. rewrite Tc, Tt. auto.
  - intros [H|[H|[H|H]]]; rewrite H; cbn;
      rewrite ?andb_false_r; reflexivity.
Qed.

Lemma login_contract_witness :
  outcome_of (login (always login_ok) (init cfg0)) = Return tt /\
  cst (state_of (login (always login_ok) (init cfg0))) = Some "c-token" /\
  security_token (state_of (login (always login_ok) (init cfg0)))
    = Some "s-token".
Proof.
  refine (proj1 (login_contract (always login_ok) (init cfg0) _ login_ok
                   eq_refl eq_refl) "c-token" "s-token" _ _ _ _);
    reflexivity.
Defined.

(** C1 as stated fails: a 200 answer that carries both headers, the CST one
    with an empty value, does not make login return normally. *)
Lemma login_empty_header_counterexample :
  status_code login_empty_cst = 200 /\
  headers_get (resp_headers login_empty_cst) "CST" = Some EmptyString /\
  headers_get (resp_headers login_empty_cst) "X-SECURITY-TOKEN"
    = Some "s-token" /\
  outcome_of (login (always login_empty_cst) (init cfg0))
    = Raise (RuntimeError login_no_tokens) /\
  outcome_of (login (always login_empty_cst) (init cfg0)) <> Return tt.
Proof. repeat split; try reflexivity. discriminate. Qed.

(** C10.  After a login answered with a 2xx status the stored tokens are
    exactly the two header values of that answer, [None] for a missing
    header, whatever was stored before; this also holds when the login then
    raises, and the object then no longer holds both tokens. *)
Theorem login_overwrites_tokens net self req r :
  trace_of (login net self) = [(req, Responded r)] ->
  200 <= status_code r < 300 ->
  cst (state_of (login net self)) = headers_get (resp_headers r) "CST" /\
  security_token (state_of (login net self))
    = headers_get (resp_headers r) "X-SECURITY-TOKEN" /\
  (outcome_of (login net self) <> Return tt ->
   outcome_of (login net self) = Raise (RuntimeError login_no_tokens) /\
   has_tokens (state_of (login net self)) = false).
Proof.
  intros Ht Hs. rewrite (login_responded net self req r Ht).
  assert (status_raises r = false) as ->
      by (unfold status_raises; apply andb_false_iff; left;
          apply Z.leb_gt; lia).
  unfold state_of, outcome_of; cbn [fst snd with_tokens cst security_token].
  repeat split; destruct (has_tokens _) eqn:E; try reflexivity;
    try congruence; exact E.
Qed.

Lemma login_overwrites_tokens_witness :
  let old : CapitalAPI := mkAPI cfg0 demo_url (Some "old-c") (Some "old-s") in
  let r := mkResponse 200 [("CST", "new")] EmptyString None in
  cst (state_of (login (always r) old)) = Some "new" /\
  security_token (state_of (login (always r) old)) = None.
Proof.
  intros old r.
  destruct (login_overwrites_tokens (always r) old _ r eq_refl)
    as (H1 & H2 & _).
  - cbn. lia.
  - split; [exact H1 | exact H2].
Defined.

(** ** Request shaping *)

(** C4.  Without the four optional arguments [create_position] sends one
    request whose body holds the fields epic, direction and size, and
    nothing else. *)
Theorem create_position_minimal_body net self epic direction size :
  exists req,
    trace_of (create_position epic direction size None None false false
                net self) = [(req, net req)] /\
    req_method req = POST /\
    req_json req = Some [("epic", VStr epic); ("direction", VStr direction);
                         ("size", VNum size)] /\
    option_map dict_keys (req_json req) = Some ["epic"; "direction"; "size"].
Proof.
  eexists (mkRequest POST _ _ None (Some _) 15).
  unfold_head. cbn [set_flag].
  match goal with |- context [net ?q] => destruct (net q) eqn:E end;
    unfold_call; repeat case_step; unfold_call;
    repeat split; rewrite <- E; reflexivity.
Qed.

(** C9.  [close_position] hands the session exactly one request, a DELETE of
    [/api/v1/positions/<deal_id>] under the base URL, and
    [delete_working_order] exactly one DELETE of
    [/api/v1/workingorders/<deal_id>]. *)
Theorem delete_by_id net self deal_id :
  (let req := mkRequest DELETE
                (base_url self ++ "/api/v1/positions/" ++ deal_id)
                (_headers self) None None 15 in
   trace_of (close_position deal_id net self) = [(req, net req)]) /\
  (let req := mkRequest DELETE
                (base_url self ++ "/api/v1/workingorders/" ++ deal_id)
                (_headers self) None None 15 in
   trace_of (delete_working_order deal_id net self) = [(req, net req)]).
Proof.
  split; intros req; subst req; run_call;
    match goal with E : net _ = _ |- _ => rewrite <- E; reflexivity end.
Qed.

(** ** Creating orders *)

(** C2, as amended.  For [create_position] and [create_working_order]
    alike, once the server has answered: with status 200 and a parsed body
    whose dealReference field holds a truthy value (a non-empty string, for
    one) the call returns that value; with status 200 and a body without the
    field, or with an empty or otherwise falsy one, or a body that is not an
    object, the call raises; with status 400 it raises the status failure,
    whose message formats the status code 400. *)
Theorem create_contract op failed net self req r :
  create_label op = Some failed ->
  trace_of (call op net self) = [(req, Responded r)] ->
  (status_code r = 200 ->
   (forall d v, _json r = VDict d -> dict_get d "dealReference" = Some v ->
                truthy v = true -> outcome_of (call op net self) = Return v) /\
   (forall d X, _json r = VDict d ->
                dict_get d "dealReference" = Some (VStr X) ->
                X <> EmptyString ->
                outcome_of (call op net self) = Return (VStr X)) /\
   (forall d, _json r = VDict d -> dict_get d "dealReference" = None ->
              outcome_of (call op net self) = Raise (no_deal_reference r)) /\
   (forall d v, _json r = VDict d -> dict_get d "dealReference" = Some v ->
                truthy v = false ->
                outcome_of (call op net self) = Raise (no_deal_reference r)) /\
   ((forall d, _json r <> VDict d) ->
    outcome_of (call op net self) = Raise (AttributeError "get"))) /\
  (status_code r = 400 ->
   outcome_of (call op net self) = Raise (status_failure failed r) /\
   carries (status_failure failed r) (VNum (NInt 400))).
Proof.
  intros L Ht. rewrite (create_responded op failed net self req r L Ht).
  split.
  - intros Hs. assert (Hlt : status_code r < 300) by lia.
    repeat split.
    + intros d v J G T. rewrite (read_below_300 _ _ _ _ d Hlt J), G, T.
      reflexivity.
    + intros d X J G NE. rewrite (read_below_300 _ _ _ _ d Hlt J), G.
      destruct X; [congruence | reflexivity].
    + intros d J G. rewrite (read_below_300 _ _ _ _ d Hlt J), G. reflexivity.
    + intros d v J G T. rewrite (read_below_300 _ _ _ _ d Hlt J), G, T.
      reflexivity.
    + intros ND. unfold read_deal_reference.
      destruct (status_code r >=? 300) eqn:E; [lia|].
      unfold_call. destruct (_json r) eqn:J; try reflexivity.
      exfalso. apply (ND d). reflexivity.
  - intros Hs. split.
    + apply read_status_failure. lia.
    + unfold status_failure, status_value, carries. rewrite Hs.
      right. left. reflexivity.
Qed.

Lemma create_contract_witness :
  outcome_of (call (CreatePosition "EPIC" "BUY" (NInt 1) None None false false)
                (always (ok_json (VDict [("dealReference", VStr "X")])))
                (init cfg0)) = Return (VStr "X").
Proof.
  refine (proj1 (proj2 (proj1
     (create_contract
        (CreatePosition "EPIC" "BUY" (NInt 1) None None false false)
        "Create position failed "
        (always (ok_json (VDict [("dealReference", VStr "X")])))
        (init cfg0) _ (ok_json (VDict [("dealReference", VStr "X")]))
        eq_refl eq_refl) eq_refl))
     [("dealReference", VStr "X")] "X" eq_refl eq_refl _).
  discriminate.
Defined.

(** C2 as stated fails: a 200 body whose dealReference field holds the empty
    string does not make [create_position] return that string. *)
Lemma create_empty_reference_counterexample :
  status_code empty_reference = 200 /\
  resp_json empty_reference
    = Some (VDict [("dealReference", VStr EmptyString)]) /\
  dict_get [("dealReference", VStr EmptyString)] "dealReference"
    = Some (VStr EmptyString) /\
  outcome_of (create_position "EPIC" "BUY" (NInt 1) None None false false
                (always empty_reference) (init cfg0))
    = Raise (no_deal_reference empty_reference) /\
  outcome_of (create_position "EPIC" "BUY" (NInt 1) None None false false
                (always empty_reference) (init cfg0))
    <> Return (VStr EmptyString).
Proof. repeat split; try reflexivity. discriminate. Qed.




(** ** Searching markets *)

(** C3, as amended.  For a [search_markets] call whose answer passes the
    status check and parses to an object: a non-empty list under "markets"
    is returned; when "markets" is absent or holds an empty list, a list
    under "content" is returned; when neither key is present the result is
    an empty list. *)
Theorem search_markets_result term net self req r d :
  trace_of (search_markets term net self) = [(req, Responded r)] ->
  status_raises r = false ->
  _json r = VDict d ->
  (forall l, dict_get d "markets" = Some (VList l) -> l <> [] ->
             outcome_of (search_markets term net self) = Return (VList l)) /\
  (forall l, dict_get d "markets" = None \/
             dict_get d "markets" = Some (VList []) ->
             dict_get d "content" = Some (VList l) ->
             outcome_of (search_markets term net self) = Return (VList l)) /\
  (dict_get d "markets" = None -> dict_get d "content" = None ->
   outcome_of (search_markets term net self) = Return (VList [])).
Proof.
  intros Ht Hs J. rewrite (search_responded term net self req r Ht), Hs, J.
  cbn [py_get]. repeat split.
  - intros l Hm NE. rewrite Hm. destruct l; [congruence | reflexivity].
  - intros l [Hm|Hm] Hc; rewrite Hm, Hc; cbn [truthy];
      destruct l; reflexivity.
  - intros Hm Hc. rewrite Hm, Hc. reflexivity.
Qed.

Lemma search_markets_result_witness :
  outcome_of (search_markets "gold"
                (always (ok_json (VDict [("content", VList [market_a])])))
                (init cfg0)) = Return (VList [market_a]).
Proof.
  refine (proj1 (proj2
     (search_markets_result "gold"
        (always (ok_json (VDict [("content", VList [market_a])])))
        (init cfg0) _ (ok_json (VDict [("content", VList [market_a])]))
        [("content", VList [market_a])] eq_refl eq_refl eq_refl))
     [market_a] _ eq_refl).
  left. reflexivity.
Defined.

(** C3 as stated fails: with an empty list under "markets" and a non-empty
    one under "content", the call returns the "content" list, not the
    "markets" one. *)
Lemma search_markets_empty_counterexample :
  status_code both_keys = 200 /\
  resp_json both_keys
    = Some (VDict [("markets", VList []); ("content", VList [market_a])]) /\
  dict_get [("markets", VList []); ("content", VList [market_a])] "markets"
    = Some (VList []) /\
  outcome_of (search_markets "gold" (always both_keys) (init cfg0))
    = Return (VList [market_a]) /\
  outcome_of (search_markets "gold" (always both_keys) (init cfg0))
    <> Return (VList []).
Proof. repeat split; try reflexivity. discriminate. Qed.

(** ** Response parsing *)

(** C6.  When the body of a response does not decode, [resp.json()] raises
    and [_json] yields the object holding the raw text under "text"
    instead; no call ever ends in the decoding exception.  With such a body
    the calls that return the parsed body return that fallback object,
    [search_markets] finds neither key in it and returns an empty list, and
    the order-creating calls raise an error that formats it. *)
Theorem json_fallback :
  (forall r, resp_json r = None ->
             json r = Raise JSONDecodeError /\
             _json r = VDict [("text", VStr (text r))]) /\
  (forall op net self,
      outcome_of (call op net self) <> Raise JSONDecodeError) /\
  (forall op net self req r,
      returns_body op = true ->
      trace_of (call op net self) = [(req, Responded r)] ->
      resp_json r = None -> status_raises r = false ->
      outcome_of (call op net self)
        = Return (VDict [("text", VStr (text r))])) /\
  (forall term net self req r,
      trace_of (search_markets term net self) = [(req, Responded r)] ->
      resp_json r = None -> status_raises r = false ->
      outcome_of (search_markets term net self) = Return (VList [])) /\
  (forall op failed net self req r,
      create_label op = Some failed ->
      trace_of (call op net self) = [(req, Responded r)] ->
      resp_json r = None ->
      exists e, outcome_of (call op net self) = Raise e /\
                carries e (VDict [("text", VStr (text r))])).
Proof.
  assert (F : forall r, resp_json r = None ->
                        json r = Raise JSONDecodeError /\
                        _json r = VDict [("text", VStr (text r))]).
  { intros r H. unfold _json, json. rewrite H. split; reflexivity. }
  split; [exact F | split; [|split; [|split]]].
  - intros op net self. destruct op; run_call; try discriminate.
    all: match goal with
         | E : float _ = Raise _ |- _ =>
             unfold float in E;
             repeat match type of E with
                    | context [match ?x with _ => _ end] => destruct x
                    end; inversion E; discriminate
         | E : py_get _ _ = Raise _ |- _ =>
             unfold py_get in E;
             repeat match type of E with
                    | context [match ?x with _ => _ end] => destruct x
                    end; inversion E; discriminate
         end.
  - intros op net self req r B Ht N S.
    rewrite (plain_responded op net self req r B Ht), S.
    destruct (F r N) as [_ ->]. reflexivity.
  - intros term net self req r Ht N S.
    rewrite (search_responded term net self req r Ht), S.
    destruct (F r N) as [_ ->]. reflexivity.
  - intros op failed net self req r L Ht N.
    rewrite (create_responded op failed net self req r L Ht).
    destruct (F r N) as [_ J].
    destruct (Z_lt_le_dec (status_code r) 300) as [Hlt|Hge].
    + exists (no_deal_reference r). split.
      * rewrite (read_below_300 _ _ _ _ _ Hlt J). reflexivity.
      * unfold no_deal_reference. rewrite J. cbn. right. left. reflexivity.
    + exists (status_failure failed r). split.
      * apply read_status_failure. exact Hge.
      * unfold status_failure. rewrite J. cbn. do 3 right. left. reflexivity.
Qed.

Lemma json_fallback_witness :
  _json not_json = VDict [("text", VStr "<html>")] /\
  outcome_of (call (Confirm "REF") (always not_json) (init cfg0))
    = Return (VDict [("text", VStr "<html>")]).
Proof.
  split.
  - exact (proj2 (proj1 json_fallback not_json eq_refl)).
  - exact (proj1 (proj2 (proj2 json_fallback)) (Confirm "REF") (always not_json)
             (init cfg0) _ not_json eq_refl eq_refl eq_refl eq_refl).
Defined.

(** ** Headers and tokens over a session *)



(** ** Frame *)

(** C8.  Every call other than login leaves the whole object (cst,
    security_token, config, base_url) as it was, whether it returns or
    raises; no call, login included, changes config or base_url; so over any
    sequence of calls the object keeps the configuration and the base URL
    it was constructed with. *)
Theorem only_login_writes_tokens :
  (forall op net self,
      is_login op = false -> state_of (call op net self) = self) /\
  (forall op net self,
      config (state_of (call op net self)) = config self /\
      base_url (state_of (call op net self)) = base_url self) /\
  (forall srv ops cfg self hist steps,
      run srv ops (init cfg) [] = (self, hist, steps) ->
      config self = cfg /\
      base_url self = if use_demo cfg then demo_url else live_url).
Proof.
  split; [|split].
  - intros op net self L. apply call_frame. exact L.
  - intros op net self. apply call_config.
  - intros srv ops cfg self hist steps R.
    exact (run_config _ _ _ _ _ _ _ R).
Qed.

Lemma only_login_writes_tokens_witness :
  let self := mkAPI cfg0 demo_url (Some "c-token") (Some "s-token") in
  state_of (call (ClosePosition "D1")
              (always (mkResponse 404 [] EmptyString None)) self) = self /\
  config (fst (fst (run (fun _ => always login_ok)
                        [Login; ListPositions] (init cfg0) []))) = cfg0.
Proof.
  intros self. split.
  - exact (proj1 only_login_writes_tokens (ClosePosition "D1")
             (always (mkResponse 404 [] EmptyString None)) self eq_refl).
  - exact (proj1 (proj2 (proj2 only_login_writes_tokens)
                    (fun _ => always login_ok) [Login; ListPositions] cfg0
                    _ _ _ eq_refl)).
Defined.

(* ================================================================= *)
(** * Further properties of the client *)

(** ** Auxiliary facts *)

Lemma dict_get_set_same {V : Type} (d : dict V) (k : string) (v : V) :
  dict_get (dict_set d k v) k = Some v.
Proof.
  induction d as [|[k' v'] d IH]; cbn [dict_set dict_get].
  - rewrite String.eqb_refl. reflexivity.
  - destruct (String.eqb k' k) eqn:E; cbn [dict_get]; rewrite E;
      [reflexivity | exact IH].
Qed.

Lemma headers_no_content_type self :
  dict_get (_headers self) "Content-Type" = None.
Proof.
  unfold _headers. destruct (cst self), (security_token self); try reflexivity.
  destruct (truthy_str s && truthy_str s0); reflexivity.
Qed.

Lemma float_raises_overflow n e : float n = Raise e -> e = OverflowError.
Proof.
  unfold float. destruct n as [z|f]; [|discriminate].
  destruct (binary_normalize 53 1024 z 0 false); intros H;
    inversion H; reflexivity.
Qed.

Lemma py_get_raises_attribute data key e :
  py_get data key = Raise e -> e = AttributeError "get".
Proof.
  unfold py_get. destruct data; try (intros H; inversion H; reflexivity).
  destruct (dict_get d key); discriminate.
Qed.

Ltac name_raised :=
  repeat match goal with
         | E : float _ = Raise _ |- _ =>
             apply float_raises_overflow in E; subst
         | E : py_get _ _ = Raise _ |- _ =>
             apply py_get_raises_attribute in E; subst
         end.

(** The URL of every request is the base URL followed by a path. *)
Lemma call_url op net self req rep :
  In (req, rep) (trace_of (call op net self)) ->
  exists rest, req_url req = base_url self ++ String "/" rest.
Proof.
  destruct op; run_call; cbn [In]; intros H; try contradiction;
    destruct H as [H|[]]; inversion H; subst; cbn [req_url String.append];
    eexists; reflexivity.
Qed.

(** ** The wire format *)

(** X1.  Over any sequence of calls on a client constructed from [cfg],
    every request goes to the demo host when [use_demo] is set and to the
    live host otherwise, at a path below it. *)
Theorem request_url_host srv cfg ops self hist steps :
  run srv ops (init cfg) [] = (self, hist, steps) ->
  forall op net req rep,
    In (req, rep) (trace_of (call op net self)) ->
    exists rest,
      req_url req
      = (if use_demo cfg then demo_url else live_url) ++ String "/" rest.
Proof.
  intros R op net req rep Hin.
  destruct (run_config _ _ _ _ _ _ _ R) as [_ Hb]. cbn in Hb.
  destruct (call_url op net self req rep Hin) as [rest Hr].
  exists rest. rewrite Hr, Hb. reflexivity.
Qed.

Lemma request_url_host_witness :
  exists rest,
    req_url (mkRequest GET (live_url ++ "/api/v1/confirms/REF")
               [("X-CAP-API-KEY", "KEY")] None None 15)
    = live_url ++ String "/" rest.
Proof.
  exact (request_url_host (fun _ => always not_json)
           (mkConfig "user@example.com" "KEY" "secret" false)
           [ListPositions] _ _ _ eq_refl (Confirm "REF") (always not_json)
           _ _ (or_introl eq_refl)).
Defined.

(** X2.  A call hands the session at most one request (nothing is retried),
    with timeout 15, and what it records as the reply is the server's reply
    to that request. *)
Theorem one_request_per_call op net self :
  (List.length (trace_of (call op net self)) <= 1)%nat /\
  forall req rep,
    In (req, rep) (trace_of (call op net self)) ->
    req_timeout req = 15 /\ rep = net req.
Proof.
  split.
  - destruct op; run_call; cbn [List.length]; auto.
  - intros req rep Hin.
    destruct (call_trace op net self req rep Hin) as (_ & Hrep & _).
    split; [|exact Hrep].
    revert Hin. destruct op; run_call; cbn [In]; intros H; try contradiction;
      destruct H as [H|[]]; inversion H; reflexivity.
Qed.

Lemma one_request_per_call_witness :
  req_timeout (mkRequest GET (demo_url ++ "/api/v1/positions")
                 [("X-CAP-API-KEY", "KEY")] None None 15) = 15.
Proof.
  exact (proj1 (proj2 (one_request_per_call ListPositions (always not_json)
                         (init cfg0)) _ _ (or_introl eq_refl))).
Defined.

(** X3.  A POST request (login and the two order-creating calls) carries
    Content-Type application/json and a JSON body and no query parameters;
    a GET or DELETE request carries neither the header nor a body. *)
Theorem content_type_on_posts op net self req rep :
  In (req, rep) (trace_of (call op net self)) ->
  match req_method req with
  | POST => dict_get (req_headers req) "Content-Type"
              = Some "application/json" /\
            req_json req <> None /\ req_params req = None
  | _ => dict_get (req_headers req) "Content-Type" = None /\
         req_json req = None
  end.
Proof.
  pose proof (headers_no_content_type self) as N.
  pose proof (dict_get_set_same (_headers self) "Content-Type"
                "application/json") as S.
  fold (json_content_type (_headers self)) in S.
  destruct op; run_call; cbn [In]; intros H; try contradiction;
    destruct H as [H|[]]; inversion H; subst;
    cbn [req_method req_headers req_json req_params];
    repeat split; try assumption; try reflexivity; discriminate.
Qed.

Lemma content_type_on_posts_witness :
  dict_get (json_content_type [("X-CAP-API-KEY", "KEY")]) "Content-Type"
    = Some "application/json".
Proof.
  exact (proj1 (content_type_on_posts Login (always login_ok) (init cfg0)
                  (mkRequest POST _ _ None (Some _) 15) _
                  (or_introl eq_refl))).
Defined.

(** X4.  The three reading calls each send exactly one GET:
    [search_markets] to [/markets] with the single query parameter
    searchTerm, [confirm] to [/api/v1/confirms/<deal_reference>] and
    [list_positions] to [/api/v1/positions], the last two without
    parameters. *)
Theorem get_requests net self term deal_ref :
  (let req := mkRequest GET (base_url self ++ "/markets") (_headers self)
                (Some [("searchTerm", term)]) None 15 in
   trace_of (search_markets term net self) = [(req, net req)]) /\
  (let req := mkRequest GET
                (base_url self ++ "/api/v1/confirms/" ++ deal_ref)
                (_headers self) None None 15 in
   trace_of (confirm deal_ref net self) = [(req, net req)]) /\
  (let req := mkRequest GET (base_url self ++ "/api/v1/positions")
                (_headers self) None None 15 in
   trace_of (list_positions net self) = [(req, net req)]).
Proof.
  repeat split; intros req; subst req; run_call;
    match goal with E : net _ = _ |- _ => rewrite <- E; reflexivity end.
Qed.

(** X5.  [login] sends one POST to [/session] whose body is the identifier
    and the password of the configuration with encryptedPassword false; no
    other call puts a password or identifier field in a body. *)
Theorem credentials_only_on_login :
  (forall net self,
      let req := mkRequest POST (base_url self ++ "/session")
                   (json_content_type (_headers self)) None
                   (Some [("identifier", VStr (identifier (config self)));
                          ("password", VStr (api_password (config self)));
                          ("encryptedPassword", VBool false)]) 15 in
      trace_of (login net self) = [(req, net req)]) /\
  (forall op net self req rep body,
      is_login op = false ->
      In (req, rep) (trace_of (call op net self)) ->
      req_json req = Some body ->
      dict_get body "password" = None /\ dict_get body "identifier" = None).
Proof.
  split.
  - intros net self req; subst req; run_call;
      match goal with E : net _ = _ |- _ => rewrite <- E; reflexivity end.
  - intros op net self req rep body L.
    destruct op; try discriminate L; run_call; cbn [In];
      intros H; try contradiction; destruct H as [H|[]];
      inversion H; subst; cbn [req_json]; intros B; inversion B; subst;
      repeat match goal with
             | b : bool |- _ => destruct b
             end; split; reflexivity.
Qed.

Lemma credentials_only_on_login_witness :
  dict_get [("epic", VStr "EPIC"); ("direction", VStr "BUY");
            ("size", VNum (NInt 1)); ("guaranteedStop", VBool true)]
    "password" = None.
Proof.
  exact (proj1 (proj2 credentials_only_on_login
                  (CreatePosition "EPIC" "BUY" (NInt 1) None None true false)
                  (always not_json) (init cfg0) _ _ _ eq_refl
                  (or_introl eq_refl) eq_refl)).
Defined.

(** ** Failures *)

(** X6.  When the session call itself raises (timeout, connection failure),
    every call, login included, lets that exception through and leaves the
    object as it was. *)
Theorem transport_failure op net self req e :
  trace_of (call op net self) = [(req, Failed e)] ->
  outcome_of (call op net self) = Raise (RequestException e) /\
  state_of (call op net self) = self.
Proof.
  destruct op; run_call; intros H; inversion H; subst;
    split; reflexivity.
Qed.

Lemma transport_failure_witness :
  let old := mkAPI cfg0 demo_url (Some "c-token") (Some "s-token") in
  outcome_of (call Login (fun _ => Failed Timeout) old)
    = Raise (RequestException Timeout) /\
  state_of (call Login (fun _ => Failed Timeout) old) = old.
Proof.
  intros old.
  exact (transport_failure Login (fun _ => Failed Timeout) old _ Timeout
           eq_refl).
Defined.

(** X7.  For every call but the two order-creating ones, an answer with a
    status from 400 to 599 raises the HTTP error carrying that answer and
    leaves the object as it was, so a refused login keeps the tokens of an
    earlier one.  The order-creating calls never raise the HTTP error. *)
Theorem http_error_raised :
  (forall op net self req r,
      create_label op = None ->
      trace_of (call op net self) = [(req, Responded r)] ->
      400 <= status_code r < 600 ->
      outcome_of (call op net self) = Raise (HTTPError r) /\
      state_of (call op net self) = self) /\
  (forall op failed net self r,
      create_label op = Some failed ->
      outcome_of (call op net self) <> Raise (HTTPError r)).
Proof.
  split.
  - intros op net self req r L Ht Hs.
    assert (S : status_raises r = true)
      by (unfold status_raises; apply andb_true_iff; split;
          [apply Z.leb_le | apply Z.ltb_lt]; lia).
    revert Ht. destruct op; try discriminate L; run_call;
      intros H; inversion H; subst; try congruence;
      split; reflexivity.
  - intros op failed net self r L.
    destruct op; try discriminate L; run_call; name_raised; discriminate.
Qed.

Lemma http_error_raised_witness :
  let old := mkAPI cfg0 demo_url (Some "c-token") (Some "s-token") in
  let r := mkResponse 401 [("CST", "other")] "denied" None in
  outcome_of (call Login (always r) old) = Raise (HTTPError r) /\
  state_of (call Login (always r) old) = old.
Proof.
  intros old r.
  refine (proj1 http_error_raised Login (always r) old _ r eq_refl eq_refl _).
  cbn. lia.
Defined.

(** X8.  [login] returns normally exactly when the server answered, the
    status is outside 400..599, and both token headers came with a non-empty
    value. *)
Theorem login_success_iff net self :
  outcome_of (login net self) = Return tt <->
  exists req r,
    trace_of (login net self) = [(req, Responded r)] /\
    status_raises r = false /\
    truthy_opt (headers_get (resp_headers r) "CST") = true /\
    truthy_opt (headers_get (resp_headers r) "X-SECURITY-TOKEN") = true.
Proof.
  split.
  - run_call; cbn [cst security_token] in *; intros H; try discriminate H.
    do 2 eexists. split; [reflexivity|].
    match goal with
    | E : negb _ = false |- _ =>
        apply negb_false_iff, andb_true_iff in E; destruct E
    end.
    repeat split; assumption.
  - intros (req & r & Ht & Hs & Hc & Hx).
    rewrite (login_responded net self req r Ht), Hs.
    unfold has_tokens, with_tokens, outcome_of; cbn.
    rewrite Hc, Hx. reflexivity.
Qed.

Lemma login_success_iff_witness :
  outcome_of (login (always login_ok) (init cfg0)) = Return tt.
Proof.
  apply (proj2 (login_success_iff (always login_ok) (init cfg0))).
  do 2 eexists. repeat split; reflexivity.
Defined.

(** X9.  [confirm], [list_positions], [close_position] and
    [delete_working_order] return whatever the body decodes to, of any JSON
    type, for every status outside 400..599 (3xx included); the only
    exceptions they raise are the session's own and the HTTP error of a
    400..599 status. *)
Theorem pass_through_calls op net self :
  returns_body op = true ->
  (forall req r v,
      trace_of (call op net self) = [(req, Responded r)] ->
      status_raises r = false -> resp_json r = Some v ->
      outcome_of (call op net self) = Return v) /\
  (forall e,
      outcome_of (call op net self) = Raise e ->
      (exists t, e = RequestException t) \/
      (exists r, e = HTTPError r /\ status_raises r = true)).
Proof.
  intros B. split.
  - intros req r v Ht Hs J.
    rewrite (plain_responded op net self req r B Ht), Hs.
    unfold _json, json. rewrite J. reflexivity.
  - intros e. destruct op; try discriminate B; run_call;
      intros H; inversion H; subst; eauto.
Qed.

Lemma pass_through_calls_witness :
  let r := mkResponse 302 [] "[1]" (Some (VList [VNum (NInt 1)])) in
  outcome_of (call ListPositions (always r) (init cfg0))
    = Return (VList [VNum (NInt 1)]).
Proof.
  intros r.
  exact (proj1 (pass_through_calls ListPositions (always r) (init cfg0)
                  eq_refl) _ r _ eq_refl eq_refl eq_refl).
Defined.

(** X10.  An order-creating call sends nothing only when a [float()]
    conversion of one of its numeric arguments fails: it then raises
    OverflowError and leaves the object as it was.  In particular a stop or
    profit level (and the level of a working order) too large for a float
    stops the call before any request is made. *)
Theorem conversion_failure_sends_nothing :
  (forall op net self,
      trace_of (call op net self) = [] ->
      outcome_of (call op net self) = Raise OverflowError /\
      state_of (call op net self) = self /\
      create_label op <> None) /\
  (forall net self epic direction size sl pl g t n,
      sl = Some n \/ pl = Some n ->
      float n = Raise OverflowError ->
      trace_of (create_position epic direction size sl pl g t net self) = []) /\
  (forall net self epic direction order_type size level tif sl pl n,
      level = n \/ sl = Some n \/ pl = Some n ->
      float n = Raise OverflowError ->
      trace_of (create_working_order epic direction order_type size level tif
                  sl pl net self) = []).
Proof.
  split; [|split].
  - intros op net self.
    destruct op; run_call; intros H; try discriminate H;
      repeat match goal with
             | E : float _ = Raise _ |- _ =>
                 apply float_raises_overflow in E; subst
             end;
      repeat split; try reflexivity; discriminate.
  - intros net self epic direction size sl pl g t n [->| ->] F;
      run_call; try reflexivity; congruence.
  - intros net self epic direction order_type size level tif sl pl n
           [->|[->| ->]] F;
      run_call; try reflexivity; congruence.
Qed.

Lemma conversion_failure_sends_nothing_witness :
  trace_of (create_position "EPIC" "BUY" (NInt 1) (Some (NInt (2 ^ 1024)))
              None false false (always not_json) (init cfg0)) = [].
Proof.
  refine (proj1 (proj2 conversion_failure_sends_nothing) (always not_json)
            (init cfg0) "EPIC" "BUY" (NInt 1) (Some (NInt (2 ^ 1024))) None
            false false (NInt (2 ^ 1024)) (or_introl eq_refl) _).
  vm_compute. reflexivity.
Defined.

(** ** Request bodies of the order-creating calls *)

(** X11.  The body [create_position] sends holds epic, direction and size
    as given (size is not converted), stopLevel and profitLevel as floats
    exactly when the arguments are given, and guaranteedStop and
    trailingStop as true exactly when the flags are set: a flag that is off
    is left out, not sent as false. *)
Theorem create_position_body epic direction size sl pl g t net self req rep :
  In (req, rep)
     (trace_of (create_position epic direction size sl pl g t net self)) ->
  exists body,
    req_json req = Some body /\
    dict_get body "epic" = Some (VStr epic) /\
    dict_get body "direction" = Some (VStr direction) /\
    dict_get body "size" = Some (VNum size) /\
    dict_get body "stopLevel" = sent_float sl /\
    dict_get body "profitLevel" = sent_float pl /\
    dict_get body "guaranteedStop" = sent_flag g /\
    dict_get body "trailingStop" = sent_flag t.
Proof.
  unfold sent_float, sent_flag.
  run_call; cbn [In]; intros H; try contradiction;
    destruct H as [H|[]]; inversion H; subst;
    eexists; (split; [reflexivity|]);
    repeat match goal with b : bool |- _ => destruct b end;
    repeat split; reflexivity.
Qed.

Lemma create_position_body_witness :
  exists body,
    Some (set_flag (set_flag
            (dict_set [("epic", VStr "EPIC"); ("direction", VStr "BUY");
                       ("size", VNum (NInt 1))]
               "stopLevel"
               (VNum (NFloat (S754_finite false 6755399441055744 (-51)))))
            "guaranteedStop" false) "trailingStop" true) = Some body /\
    dict_get body "epic" = Some (VStr "EPIC") /\
    dict_get body "direction" = Some (VStr "BUY") /\
    dict_get body "size" = Some (VNum (NInt 1)) /\
    dict_get body "stopLevel" = sent_float (Some (NInt 3)) /\
    dict_get body "profitLevel" = sent_float None /\
    dict_get body "guaranteedStop" = sent_flag false /\
    dict_get body "trailingStop" = sent_flag true.
Proof.
  exact (create_position_body "EPIC" "BUY" (NInt 1) (Some (NInt 3)) None
           false true (always not_json) (init cfg0)
           (mkRequest POST _ _ None (Some _) 15) _ (or_introl eq_refl)).
Defined.

(** X12.  The body [create_working_order] sends always holds epic,
    direction, orderType, size, level and timeInForce, the level converted
    to a float and the size as given; stopLevel and profitLevel are there
    exactly when the arguments are given; it never holds guaranteedStop or
    trailingStop. *)
Theorem create_working_order_body
  epic direction order_type size level tif sl pl net self req rep :
  In (req, rep)
     (trace_of (create_working_order epic direction order_type size level tif
                  sl pl net self)) ->
  exists body,
    req_json req = Some body /\
    dict_get body "epic" = Some (VStr epic) /\
    dict_get body "direction" = Some (VStr direction) /\
    dict_get body "orderType" = Some (VStr order_type) /\
    dict_get body "size" = Some (VNum size) /\
    dict_get body "level" = sent_float (Some level) /\
    dict_get body "timeInForce" = Some (VStr tif) /\
    dict_get body "stopLevel" = sent_float sl /\
    dict_get body "profitLevel" = sent_float pl /\
    dict_get body "guaranteedStop" = None /\
    dict_get body "trailingStop" = None.
Proof.
  unfold sent_float.
  run_call; cbn [In]; intros H; try contradiction;
    destruct H as [H|[]]; inversion H; subst;
    eexists; (split; [reflexivity|]); repeat split; reflexivity.
Qed.

Lemma create_working_order_body_witness :
  exists body,
    Some [("epic", VStr "EPIC"); ("direction", VStr "SELL");
          ("orderType", VStr "LIMIT"); ("size", VNum (NInt 2));
          ("level", VNum (NFloat (S754_finite false 6755399441055744 (-51))));
          ("timeInForce", VStr "GOOD_TILL_CANCELLED")] = Some body /\
    dict_get body "epic" = Some (VStr "EPIC") /\
    dict_get body "direction" = Some (VStr "SELL") /\
    dict_get body "orderType" = Some (VStr "LIMIT") /\
    dict_get body "size" = Some (VNum (NInt 2)) /\
    dict_get body "level" = sent_float (Some (NInt 3)) /\
    dict_get body "timeInForce" = Some (VStr "GOOD_TILL_CANCELLED") /\
    dict_get body "stopLevel" = sent_float None /\
    dict_get body "profitLevel" = sent_float None /\
    dict_get body "guaranteedStop" = None /\
    dict_get body "trailingStop" = None.
Proof.
  exact (create_working_order_body "EPIC" "SELL" "LIMIT" (NInt 2) (NInt 3)
           "GOOD_TILL_CANCELLED" None None (always not_json) (init cfg0)
           (mkRequest POST _ _ None (Some _) 15) _ (or_introl eq_refl)).
Defined.

(** ** Edge cases of [search_markets] *)

(** X13.  When the answer passes the status check: a body that decodes to
    something other than an object makes [search_markets] raise
    AttributeError; a truthy value under "markets" is returned as it is,
    whatever its type; otherwise a truthy value under "content" is returned;
    and when both are missing or falsy (null, empty, zero) the result is an
    empty list. *)
Theorem search_markets_edges term net self req r :
  trace_of (search_markets term net self) = [(req, Responded r)] ->
  status_raises r = false ->
  ((forall d, _json r <> VDict d) ->
   outcome_of (search_markets term net self) = Raise (AttributeError "get")) /\
  (forall m, py_get (_json r) "markets" = Return m -> truthy m = true ->
             outcome_of (search_markets term net self) = Return m) /\
  (forall m c, py_get (_json r) "markets" = Return m -> truthy m = false ->
               py_get (_json r) "content" = Return c ->
               outcome_of (search_markets term net self)
               = if truthy c then Return c else Return (VList [])).
Proof.
  intros Ht Hs. rewrite (search_responded term net self req r Ht), Hs.
  repeat split.
  - intros ND. destruct (_json r) eqn:J; try reflexivity.
    exfalso. apply (ND d). reflexivity.
  - intros m Hm Tm. rewrite Hm, Tm. reflexivity.
  - intros m c Hm Tm Hc. rewrite Hm, Tm, Hc. reflexivity.
Qed.

Lemma search_markets_edges_witness :
  let r := ok_json (VList [market_a]) in
  outcome_of (search_markets "gold" (always r) (init cfg0))
    = Raise (AttributeError "get").
Proof.
  intros r.
  refine (proj1 (search_markets_edges "gold" (always r) (init cfg0) _ r
                   eq_refl eq_refl) _).
  intros d. discriminate.
Defined.

(** ** Headers *)

Lemma headers_shape self :
  _headers self = [("X-CAP-API-KEY", api_key (config self))] \/
  exists c t,
    _headers self = [("X-CAP-API-KEY", api_key (config self));
                     ("CST", c); ("X-SECURITY-TOKEN", t)].
Proof.
  unfold _headers.
  destruct (cst self) as [c|], (security_token self) as [t|]; auto.
  destruct (truthy_str c && truthy_str t); auto.
  right. exists c, t. reflexivity.
Qed.

Lemma headers_keys self k v :
  dict_get (_headers self) k = Some v ->
  In k ["X-CAP-API-KEY"; "CST"; "X-SECURITY-TOKEN"].
Proof.
  destruct (headers_shape self) as [-> | (c & t & ->)]; cbn [dict_get];
    repeat match goal with
           | |- context [String.eqb ?a k] =>
               destruct (String.eqb a k) eqn:?
           end;
    intros H; try discriminate H;
    repeat match goal with
           | E : String.eqb _ k = true |- _ => apply String.eqb_eq in E
           end; subst; cbn; auto.
Qed.

(** X14.  The headers dict a call passes to the session ([headers=]) has
    no key other than X-CAP-API-KEY, CST, X-SECURITY-TOKEN and Content-Type.
    (What the session adds of its own to the request on the wire is not the
    client's doing.) *)
Theorem header_whitelist op net self req rep k v :
  In (req, rep) (trace_of (call op net self)) ->
  dict_get (req_headers req) k = Some v ->
  In k ["X-CAP-API-KEY"; "CST"; "X-SECURITY-TOKEN"; "Content-Type"].
Proof.
  intros Hin Hk.
  assert (W : forall k', In k' ["X-CAP-API-KEY"; "CST"; "X-SECURITY-TOKEN"] ->
                         In k' ["X-CAP-API-KEY"; "CST"; "X-SECURITY-TOKEN";
                                "Content-Type"]).
  { cbn. intuition. }
  destruct (call_trace op net self req rep Hin) as (_ & _ & [Hh|Hh]);
    rewrite Hh in Hk.
  - apply W. exact (headers_keys self k v Hk).
  - destruct (String.eqb k "Content-Type") eqn:E.
    + apply String.eqb_eq in E. subst. cbn. auto.
    + rewrite (content_type_other _ _ E) in Hk.
      apply W. exact (headers_keys self k v Hk).
Qed.

Lemma header_whitelist_witness :
  In "CST" ["X-CAP-API-KEY"; "CST"; "X-SECURITY-TOKEN"; "Content-Type"].
Proof.
  exact (header_whitelist ListPositions (always not_json)
           (mkAPI cfg0 demo_url (Some "c-token") (Some "s-token"))
           _ _ "CST" "c-token" (or_introl eq_refl) eq_refl).
Defined.

(** ** Tokens across calls *)

(** A run without login leaves the object alone, and every request of it is
    built from the headers of that object. *)
Lemma run_without_login srv ops : forall self hist self' hist' steps,
  forallb (fun op => negb (is_login op)) ops = true ->
  run srv ops self hist = (self', hist', steps) ->
  self' = self /\
  forall op t out rq rp,
    In (op, t, out) steps -> In (rq, rp) t ->
    req_headers rq = _headers self \/
    req_headers rq = json_content_type (_headers self).
Proof.
  induction ops as [|op ops IH]; intros self hist self' hist' steps;
    cbn [run forallb].
  - intros _ H; inversion H; subst. split; [reflexivity|].
    intros op t out rq rp [].
  - intros NL. apply andb_true_iff in NL. destruct NL as [L NL].
    apply negb_true_iff in L.
    destruct (call op (srv hist) self) as [[self1 t1] out1] eqn:E.
    destruct (run srv ops self1 (hist ++ t1)%list)
      as [[self2 hist2] steps2] eqn:R.
    intros H; inversion H; subst.
    pose proof (call_frame op (srv hist) self L) as F.
    rewrite E in F. cbn in F. subst self1.
    destruct (IH _ _ _ _ _ NL R) as [-> IH2]. split; [reflexivity|].
    intros op' t out rq rp [Hs|Hs] Hin.
    + inversion Hs; subst.
      assert (Hin' : In (rq, rp) (trace_of (call op' (srv hist) self)))
        by (rewrite E; exact Hin).
      exact (proj2 (proj2 (call_trace _ _ _ _ _ Hin'))).
    + exact (IH2 _ _ _ _ _ Hs Hin).
Qed.

(** X15.  After a login that succeeded on the answer [r], any number of
    calls other than login leave the object as the login left it, and every
    request they send carries the CST and X-SECURITY-TOKEN values of [r]
    together with the API key. *)
Theorem tokens_persist net self req r :
  trace_of (login net self) = [(req, Responded r)] ->
  outcome_of (login net self) = Return tt ->
  forall srv ops hist self' hist' steps,
    forallb (fun op => negb (is_login op)) ops = true ->
    run srv ops (state_of (login net self)) hist = (self', hist', steps) ->
    self' = state_of (login net self) /\
    forall op t out rq rp,
      In (op, t, out) steps -> In (rq, rp) t ->
      dict_get (req_headers rq) "X-CAP-API-KEY"
        = Some (api_key (config self)) /\
      dict_get (req_headers rq) "CST" = headers_get (resp_headers r) "CST" /\
      dict_get (req_headers rq) "X-SECURITY-TOKEN"
        = headers_get (resp_headers r) "X-SECURITY-TOKEN".
Proof.
  intros Ht Ho srv ops hist self' hist' steps NL R.
  destruct (run_without_login srv ops _ _ _ _ _ NL R) as [-> Hreq].
  split; [reflexivity|].
  intros op t out rq rp Hs Hin.
  assert (K : forall k, String.eqb k "Content-Type" = false ->
                        dict_get (req_headers rq) k
                        = dict_get (_headers (state_of (login net self))) k).
  { intros k Hk. destruct (Hreq op t out rq rp Hs Hin) as [-> | ->];
      [reflexivity | apply content_type_other; exact Hk]. }
  rewrite !K by reflexivity.
  pose proof (headers_api_key (state_of (login net self))) as A.
  pose proof (headers_tokens (state_of (login net self))) as T.
  revert Ho A T. rewrite (login_responded net self req r Ht).
  destruct (status_raises r); unfold state_of, outcome_of;
    cbn [fst snd]; [discriminate|].
  destruct (has_tokens (with_tokens self r)); [|discriminate].
  intros _ A T. cbn [with_tokens config cst security_token] in A, T.
  destruct T as [T1 T2]. repeat split; assumption.
Qed.

Lemma tokens_persist_witness :
  let self := state_of (login (always login_ok) (init cfg0)) in
  let run1 := run (fun _ => always not_json) [ListPositions; Confirm "REF"]
                self [] in
  fst (fst run1) = self /\
  forall op t out rq rp,
    In (op, t, out) (snd run1) -> In (rq, rp) t ->
    dict_get (req_headers rq) "X-CAP-API-KEY" = Some "KEY" /\
    dict_get (req_headers rq) "CST" = Some "c-token" /\
    dict_get (req_headers rq) "X-SECURITY-TOKEN" = Some "s-token".
Proof.
  intros self run1.
  exact (tokens_persist (always login_ok) (init cfg0) _ login_ok
           eq_refl eq_refl (fun _ => always not_json)
           [ListPositions; Confirm "REF"] [] _ _ _ eq_refl eq_refl).
Defined.

(** X16.  [login] never reads the body of the answer: two answers with the
    same status and the same headers give the same outcome and the same
    stored tokens. *)
Theorem login_ignores_body net1 net2 self req1 req2 r1 r2 :
  trace_of (login net1 self) = [(req1, Responded r1)] ->
  trace_of (login net2 self) = [(req2, Responded r2)] ->
  status_code r1 = status_code r2 ->
  resp_headers r1 = resp_headers r2 ->
  state_of (login net1 self) = state_of (login net2 self) /\
  (outcome_of (login net1 self) = Return tt <->
   outcome_of (login net2 self) = Return tt) /\
  (status_raises r1 = false ->
   outcome_of (login net1 self) = outcome_of (login net2 self)).
Proof.
  intros H1 H2 Hs Hh.
  rewrite (login_responded net1 self req1 r1 H1).
  rewrite (login_responded net2 self req2 r2 H2).
  assert (S : status_raises r1 = status_raises r2)
    by (unfold status_raises; rewrite Hs; reflexivity).
  assert (W : with_tokens self r1 = with_tokens self r2)
    by (unfold with_tokens; rewrite Hh; reflexivity).
  rewrite <- S, <- W. unfold state_of, outcome_of.
  destruct (status_raises r1); cbn [fst snd].
  - repeat split; discriminate.
  - repeat split; auto.
Qed.

Lemma login_ignores_body_witness :
  let r2 := mkResponse 200
              [("CST", "c-token"); ("X-SECURITY-TOKEN", "s-token")]
              "{}" (Some (VDict [])) in
  state_of (login (always login_ok) (init cfg0))
    = state_of (login (always r2) (init cfg0)).
Proof.
  intros r2.
  exact (proj1 (login_ignores_body (always login_ok) (always r2) (init cfg0)
                  _ _ login_ok r2 eq_refl eq_refl eq_refl eq_refl)).
Defined.
